(** * HDFS client lifecycle script: a shallow embedding of [hdfs_client.py]

    The script [HdfsClient] (common-services/HDFS/2.1.0.2.0/package/scripts)
    is glue over the resource-management library.  Its hooks are embedded as
    computations in a small state-and-exception monad: the state holds the
    structured-output mapping of the script and the trace of the library
    calls made so far, the exception side carries Python exceptions. *)

From stdpp Require Import base option list strings gmap fin_maps.
From Stdlib Require Import ZArith.

Local Open Scope Z_scope.

(** ** Python values the script handles *)

(** A raised Python exception: the class it was built from and the text
    [str(e)] renders. *)
Record PyException : Type := mkExc {
  exc_class : string;
  exc_message : string
}.

Definition py_str (e : PyException) : string := exc_message e.

(** The builtin classes that derive from [BaseException] without deriving
    from [Exception]. *)
Definition outside_Exception : list string :=
  ["SystemExit"; "KeyboardInterrupt"; "GeneratorExit"].

(** [isinstance(e, Exception)], decided on the class of [e]. *)
Definition is_Exception (e : PyException) : bool :=
  negb (bool_decide (exc_class e ∈ outside_Exception)).

(** Truth value of a parameter that is either [None] or a string. *)
Definition py_truthy (v : option string) : bool :=
  match v with
  | None => false
  | Some s => negb (String.eqb s "")
  end.

(** A Python [dict] with string keys, kept as the list of its items in
    iteration order; a well-formed one holds each key once. *)
Definition Dict (V : Type) : Type := list (string * V).

Definition dict_keys {V} (d : Dict V) : list string := map fst d.

Fixpoint dict_get {V} (d : Dict V) (k : string) : option V :=
  match d with
  | [] => None
  | (k', v) :: d' => if String.eqb k k' then Some v else dict_get d' k
  end.

Fixpoint dict_wf {V} (d : Dict V) : bool :=
  match d with
  | [] => true
  | (k, _) :: d' => negb (bool_decide (k ∈ dict_keys d')) && dict_wf d'
  end.

(** [d.update(other)]: the items of [other] replace or extend those of [d]. *)
Fixpoint dict_set {V} (d : Dict V) (k : string) (v : V) : Dict V :=
  match d with
  | [] => [(k, v)]
  | (k', v') :: d' =>
      if String.eqb k k' then (k', v) :: d' else (k', v') :: dict_set d' k v
  end.

Definition dict_update {V} (d other : Dict V) : Dict V :=
  fold_left (fun acc kv => dict_set acc (fst kv) (snd kv)) other d.

(** ** Parameter modules *)

(** The names of [status_params] that [security_status] reads. *)
Record StatusParams : Type := mkStatusParams {
  security_enabled : bool;
  hadoop_conf_dir : string;
  hdfs_user_principal : option string;
  hdfs_user_keytab : option string;
  kinit_path_local : string;
  hdfs_user : string;
  hostname : string;
  tmp_dir : string
}.

(** The name of [params] that [pre_rolling_restart] reads. *)
Record Params : Type := mkParams {
  version : option string
}.

(** ** Expectations and configuration read from disk *)

(** Modelled from the spec: [build_expectations] is defined in the library
    module [security_commons], which is not among the sources.  An
    expectation set pairs a configuration source with value expectations
    (key to required value), non-empty expectations (keys) and optional
    readable expectations (keys). *)
Record ExpectationSet : Type := mkExpectationSet {
  value_checks : Dict string;
  empty_checks : list string;
  read_checks : option (list string)
}.

Definition build_expectations (config_file : string)
    (value_checks : Dict string) (empty_checks : list string)
    (read_checks : option (list string)) : Dict ExpectationSet :=
  [(config_file, mkExpectationSet value_checks empty_checks read_checks)].

(** What [get_params_from_filesystem] hands back: for each configuration
    source the key/value pairs found in its file. *)
Definition SecurityParams : Type := Dict (Dict string).

(** ** Library calls and the script's state *)

(** Arguments of one [cached_kinit_executor] call, in call order. *)
Record KinitArgs : Type := mkKinitArgs {
  kinit_path : string;
  exec_user : string;
  keytab_file : option string;
  principal : option string;
  kinit_hostname : string;
  temp_dir : string;
  expiration_time : Z
}.

Inductive Event : Type :=
  | EvSetParams (module_name : string)
  | EvGetParams (conf_dir : string) (config_files : list string)
  | EvValidate (params : SecurityParams) (rules : Dict ExpectationSet)
  | EvKinit (args : KinitArgs)
  | EvPutStructuredOut (sout : gmap string string)
  | EvExecute (command : string).

Definition is_config_read (e : Event) : bool :=
  match e with EvGetParams _ _ => true | _ => false end.

Definition is_validation (e : Event) : bool :=
  match e with EvValidate _ _ => true | _ => false end.

Definition is_credential_check (e : Event) : bool :=
  match e with EvKinit _ => true | _ => false end.

Record World : Type := mkWorld {
  structuredOut : gmap string string;
  trace : list Event
}.

(** A script starts with an empty structured output and no call made. *)
Definition fresh : World := mkWorld ∅ [].

(** ** The monad of script hooks *)

Definition M (A : Type) : Type := World → World * (PyException + A).

Module MonadM.

Definition ret {A} (x : A) : M A := fun w => (w, inr x).

Definition bind {A B} (m : M A) (f : A → M B) : M B :=
  fun w =>
    match m w with
    | (w', inr a) => f a w'
    | (w', inl e) => (w', inl e)
    end.

Definition raise {A} (e : PyException) : M A := fun w => (w, inl e).

(** [try: body except Exception as e: handler e]: the handler takes the
    instances of [Exception]; any other exception goes on to the caller. *)
Definition try_except {A} (body : M A) (handler : PyException → M A) : M A :=
  fun w =>
    match body w with
    | (w', inl e) => if is_Exception e then handler e w' else (w', inl e)
    | r => r
    end.

Definition emit (ev : Event) : M unit :=
  fun w => (mkWorld (structuredOut w) (trace w ++ [ev]), inr tt).

(** The result of a library call, raised when it is an exception. *)
Definition lift {A} (r : PyException + A) : M A := fun w => (w, r).

End MonadM.

Import MonadM.

Declare Scope hook_scope.
Delimit Scope hook_scope with hook.
Notation "x <- m ;; k" := (bind m (fun x => k))
  (at level 100, m at next level, right associativity) : hook_scope.
Notation "m ;;; k" := (bind m (fun _ => k))
  (at level 100, right associativity) : hook_scope.
Local Open Scope hook_scope.

(** Modelled from the spec: [Script.put_structured_out] belongs to the
    library's [Script] base class, which is not among the sources.  The
    structured output is a flat key-to-string mapping and each call merges
    its argument into it, the argument's keys winning. *)
Definition put_structured_out (sout : gmap string string) : M unit :=
  fun w =>
    (mkWorld (sout ∪ structuredOut w) (trace w ++ [EvPutStructuredOut sout]),
     inr tt).

(** [env.set_params(module)]. *)
Definition set_params (module_name : string) : M unit :=
  emit (EvSetParams module_name).

(** [d[k]], raising [KeyError] on a missing key. *)
Definition dict_getitem (d : Dict string) (k : string) : M string :=
  match dict_get d k with
  | Some v => ret v
  | None => raise (mkExc "KeyError" k)
  end.

(** [format("hdp-select set hadoop-client {version}")]. *)
Definition format_hdp_select (version : option string) : string :=
  "hdp-select set hadoop-client " +:+ default "None" version.

(** ** The hooks of [HdfsClient] *)

Section HdfsClient.

(** The library functions the script imports are not among the sources;
    each is a capability whose answer depends on its arguments only. *)
Variable config_reader : string → list string → PyException + SecurityParams.
Variable validator : SecurityParams → Dict ExpectationSet → Dict string.
Variable credential_check : KinitArgs → PyException + unit.
Variable compare_versions : string → string → PyException + Z.
Variable format_hdp_stack_version : option string → string.
Variable shell : string → PyException + unit.

Definition get_params_from_filesystem (conf_dir : string)
    (config_files : list string) : M SecurityParams :=
  emit (EvGetParams conf_dir config_files) ;;;
  lift (config_reader conf_dir config_files).

Definition validate_security_config_properties (params : SecurityParams)
    (configuration_rules : Dict ExpectationSet) : M (Dict string) :=
  emit (EvValidate params configuration_rules) ;;;
  ret (validator params configuration_rules).

Definition cached_kinit_executor (kinit_path exec_user : string)
    (keytab_file principal : option string) (hostname temp_dir : string)
    (expiration_time : Z) : M unit :=
  let args := mkKinitArgs kinit_path exec_user keytab_file principal
                hostname temp_dir expiration_time in
  emit (EvKinit args) ;;; lift (credential_check args).

Definition Execute (command : string) : M unit :=
  emit (EvExecute command) ;;; lift (shell command).

Definition pre_rolling_restart (params : Params) : M unit :=
  set_params "params" ;;;
  if py_truthy (version params) then
    c <- lift (compare_versions
                 (format_hdp_stack_version (version params)) "2.2.0.0") ;;
    if c >=? 0 then Execute (format_hdp_select (version params))
    else ret tt
  else ret tt.

Definition start (params : Params) : M unit := set_params "params".

Definition stop (params : Params) : M unit := set_params "params".

Definition status : M unit :=
  raise (mkExc "ClientComponentHasNoStatus" "").

(** The loop [for cf in result_issues: issues += ...]. *)
Fixpoint collect_issues (result_issues : Dict string) (cfs : list string)
    (issues : string) : M string :=
  match cfs with
  | [] => ret issues
  | cf :: cfs' =>
      reason <- dict_getitem result_issues cf ;;
      collect_issues result_issues cfs'
        (issues +:+ ("Configuration file " +:+ cf +:+
                     " did not pass the validation. Reason: " +:+ reason))
  end.

Definition security_status (status_params : StatusParams) : M unit :=
  set_params "status_params" ;;;
  if security_enabled status_params then
    let props_value_check :=
      [("hadoop.security.authentication", "kerberos");
       ("hadoop.security.authorization", "true")] in
    let props_empty_check := ["hadoop.security.auth_to_local"] in
    let props_read_check := None in
    let core_site_expectations :=
      build_expectations "core-site" props_value_check props_empty_check
        props_read_check in
    let hdfs_expectations := dict_update [] core_site_expectations in
    security_params <-
      get_params_from_filesystem (hadoop_conf_dir status_params)
        ["core-site.xml"] ;;
    result_issues <-
      validate_security_config_properties security_params hdfs_expectations ;;
    match result_issues with
    | [] =>
        if py_truthy (hdfs_user_principal status_params)
           || py_truthy (hdfs_user_keytab status_params)
        then
          try_except
            (cached_kinit_executor (kinit_path_local status_params)
               (hdfs_user status_params)
               (hdfs_user_keytab status_params)
               (hdfs_user_principal status_params)
               (hostname status_params)
               (tmp_dir status_params)
               30 ;;;
             put_structured_out {[ "securityState" := "SECURED_KERBEROS" ]})
            (fun e =>
               put_structured_out {[ "securityState" := "ERROR" ]} ;;;
               put_structured_out
                 {[ "securityStateErrorInfo" := py_str e ]})
        else
          put_structured_out
            {[ "securityIssuesFound" :=
                 "hdfs principal and/or keytab file is not specified" ]} ;;;
          put_structured_out {[ "securityState" := "UNSECURED" ]}
    | _ :: _ =>
        issues <- collect_issues result_issues (dict_keys result_issues) "" ;;
        put_structured_out {[ "securityIssuesFound" := issues ]} ;;;
        put_structured_out {[ "securityState" := "UNSECURED" ]}
    end
  else
    put_structured_out {[ "securityState" := "UNSECURED" ]}.

End HdfsClient.

(** The structured output a hook leaves when run from a fresh script. *)
Definition report (hook : M unit) : gmap string string :=
  structuredOut (fst (hook fresh)).

(** The library calls a hook makes when run from a fresh script. *)
Definition calls (hook : M unit) : list Event := trace (fst (hook fresh)).

(** How a hook run from a fresh script ends: normally or with an exception. *)
Definition outcome (hook : M unit) : PyException + unit := snd (hook fresh).

(** ** Validation of the configuration against the expectations *)

Module SecurityCommons.

(** A failed expectation, kept as data rather than raised. *)
Inductive ValidationFailure : Type :=
  | UnexpectedValue (property expected : string) (actual : option string)
  | MissingOrEmpty (property : string)
  | NotReadable (property : string).

(** The key/value pairs read for a source; none when the source is absent. *)
Definition actual_values (params : SecurityParams) (config_file : string)
    : Dict string :=
  default [] (dict_get params config_file).

Definition check_value (actual : Dict string) (rule : string * string)
    : option ValidationFailure :=
  match dict_get actual rule.1 with
  | Some v =>
      if String.eqb v rule.2 then None
      else Some (UnexpectedValue rule.1 rule.2 (Some v))
  | None => Some (UnexpectedValue rule.1 rule.2 None)
  end.

Definition check_non_empty (actual : Dict string) (property : string)
    : option ValidationFailure :=
  match dict_get actual property with
  | Some v => if String.eqb v "" then Some (MissingOrEmpty property) else None
  | None => Some (MissingOrEmpty property)
  end.

Definition check_readable (actual : Dict string) (property : string)
    : option ValidationFailure :=
  match dict_get actual property with
  | Some _ => None
  | None => Some (NotReadable property)
  end.

Fixpoint first_failure {A} (check : A → option ValidationFailure)
    (rules : list A) : option ValidationFailure :=
  match rules with
  | [] => None
  | r :: rules' =>
      match check r with
      | Some f => Some f
      | None => first_failure check rules'
      end
  end.

Definition check_source (actual : Dict string) (es : ExpectationSet)
    : option ValidationFailure :=
  match first_failure (check_value actual) (value_checks es) with
  | Some f => Some f
  | None =>
      match first_failure (check_non_empty actual) (empty_checks es) with
      | Some f => Some f
      | None =>
          first_failure (check_readable actual) (default [] (read_checks es))
      end
  end.

Section Validation.

(** The spec fixes no wording for a violation reason. *)
Variable describe : ValidationFailure → string.

(** Modelled from the spec: [validate_security_config_properties] is defined
    in the library module [security_commons], which is not among the
    sources.  For each configuration source, every value expectation
    requires the actual value to equal the expected one, every non-empty
    expectation requires the actual value to exist and not be the empty
    string, and a readable expectation requires the key to be present; a
    source enters the result, with a reason, only if one of its expectations
    failed. *)
Fixpoint validate_security_config_properties (params : SecurityParams)
    (configuration_rules : Dict ExpectationSet) : Dict string :=
  match configuration_rules with
  | [] => []
  | (config_file, rule_sets) :: rules' =>
      match check_source (actual_values params config_file) rule_sets with
      | Some f =>
          (config_file, describe f)
            :: validate_security_config_properties params rules'
      | None => validate_security_config_properties params rules'
      end
  end.

End Validation.

(** What it means for the configuration read to meet the expectations. *)
Definition value_met (actual : Dict string) (rule : string * string) : Prop :=
  dict_get actual rule.1 = Some rule.2.

Definition non_empty_met (actual : Dict string) (property : string) : Prop :=
  ∃ v, dict_get actual property = Some v ∧ v ≠ "".

Definition readable_met (actual : Dict string) (property : string) : Prop :=
  is_Some (dict_get actual property).

Definition source_met (params : SecurityParams)
    (rule : string * ExpectationSet) : Prop :=
  let actual := actual_values params rule.1 in
  Forall (value_met actual) (value_checks rule.2)
  ∧ Forall (non_empty_met actual) (empty_checks rule.2)
  ∧ Forall (readable_met actual) (default [] (read_checks rule.2)).

Definition expectations_met (params : SecurityParams)
    (configuration_rules : Dict ExpectationSet) : Prop :=
  Forall (source_met params) configuration_rules.

End SecurityCommons.

(** The expectations [security_status] builds for HDFS: two value
    expectations and one non-empty expectation on [core-site], nothing to
    read. *)
Definition hdfs_expectations : Dict ExpectationSet :=
  dict_update []
    (build_expectations "core-site"
       [("hadoop.security.authentication", "kerberos");
        ("hadoop.security.authorization", "true")]
       ["hadoop.security.auth_to_local"]
       None).

(** The credential check [security_status] asks for. *)
Definition kinit_args (status_params : StatusParams) : KinitArgs :=
  mkKinitArgs (kinit_path_local status_params) (hdfs_user status_params)
    (hdfs_user_keytab status_params) (hdfs_user_principal status_params)
    (hostname status_params) (tmp_dir status_params) 30.

(** One line of [securityIssuesFound] for a failing source. *)
Definition issue_line (item : string * string) : string :=
  "Configuration file " +:+ item.1 +:+
  " did not pass the validation. Reason: " +:+ item.2.

Fixpoint concat_strings (l : list string) : string :=
  match l with
  | [] => ""
  | s :: l' => s +:+ concat_strings l'
  end.

(** [sub] occurs in [s]. *)
Definition contains (s sub : string) : Prop :=
  ∃ pre post, s = pre +:+ sub +:+ post.

(** The shape every report of [security_status] must have. *)
Definition report_invariant (r : gmap string string) : Prop :=
  (is_Some (r !! "securityStateErrorInfo") → r !! "securityState" = Some "ERROR")
  ∧ (is_Some (r !! "securityIssuesFound")
     → r !! "securityState" = Some "UNSECURED").

(** The version gate of [pre_rolling_restart]: version [v] is set and its
    formatted form compares at or above the threshold. *)
Definition version_reaches_threshold
    (compare_versions : string → string → PyException + Z)
    (format_hdp_stack_version : option string → string)
    (params : Params) (v : string) : Prop :=
  version params = Some v ∧ v ≠ ""
  ∧ ∃ c, compare_versions (format_hdp_stack_version (Some v)) "2.2.0.0" = inr c
         ∧ 0 ≤ c.

(** ** A sample deployment *)

Module Sample.

Definition describe (f : SecurityCommons.ValidationFailure) : string :=
  match f with
  | SecurityCommons.UnexpectedValue p expected _ =>
      "Property " +:+ p +:+ " is expected to be " +:+ expected
  | SecurityCommons.MissingOrEmpty p =>
      "Property " +:+ p +:+ " must exist and must not be empty"
  | SecurityCommons.NotReadable p =>
      "Property " +:+ p +:+ " cannot be read"
  end.

Definition validator : SecurityParams → Dict ExpectationSet → Dict string :=
  SecurityCommons.validate_security_config_properties describe.

Definition kerberos_core_site : SecurityParams :=
  [("core-site",
    [("hadoop.security.authentication", "kerberos");
     ("hadoop.security.authorization", "true");
     ("hadoop.security.auth_to_local", "DEFAULT")])].

Definition simple_core_site : SecurityParams :=
  [("core-site",
    [("hadoop.security.authentication", "simple");
     ("hadoop.security.authorization", "true");
     ("hadoop.security.auth_to_local", "DEFAULT")])].

Definition reads (params : SecurityParams)
    : string → list string → PyException + SecurityParams :=
  fun _ _ => inr params.

Definition kinit_succeeds : KinitArgs → PyException + unit :=
  fun _ => inr tt.

Definition kinit_raises (e : PyException) : KinitArgs → PyException + unit :=
  fun _ => inl e.

Definition status_params (enabled : bool) (user_principal user_keytab : option string)
    : StatusParams :=
  mkStatusParams enabled "/etc/hadoop/conf" user_principal user_keytab
    "/usr/bin/kinit" "hdfs" "c6401.ambari.apache.org" "/var/lib/ambari-agent/tmp".

Definition secured : StatusParams :=
  status_params true (Some "hdfs@EXAMPLE.COM")
    (Some "/etc/security/keytabs/hdfs.headless.keytab").

Definition principal_only : StatusParams :=
  status_params true (Some "hdfs@EXAMPLE.COM") None.

Definition no_identity : StatusParams := status_params true None None.

Definition unsecured : StatusParams := status_params false None None.

(** A stand-in for the library's version functions on the versions used
    below: the formatted version is the version itself, and the comparison
    knows two releases. *)
Definition format_hdp_stack_version (v : option string) : string :=
  default "" v.

Definition compare_versions (v threshold : string) : PyException + Z :=
  if String.eqb v "2.2.1.0" then inr 1
  else if String.eqb v "2.1.0.0" then inr (-1)
  else inl (mkExc "ValueError" v).

Definition shell : string → PyException + unit := fun _ => inr tt.

End Sample.

(** ** Installation and configuration *)

(** The name of [params] that [install] reads. *)
Record InstallParams : Type := mkInstallParams {
  exclude_packages : list string
}.

Section Install.

(** [Script.install_packages] and [hdfs()] (module [hdfs]) are not among the
    sources; each is some computation on the script's state that may
    raise. *)
Variable install_packages : list string → M unit.
Variable hdfs : M unit.

Definition config : M unit := hdfs ;;; ret tt.

Definition install (params : InstallParams) : M unit :=
  install_packages (exclude_packages params) ;;;
  set_params "params" ;;;
  config.

End Install.

(** ** Running a hook from a state other than the fresh one *)

(** [extend w d]: the state [w] after the puts and calls recorded in [d]. *)
Definition extend (w d : World) : World :=
  mkWorld (structuredOut d ∪ structuredOut w) (trace w ++ trace d).

(** A computation that never looks at the state it starts from: from any
    state it adds what it adds from the fresh one and ends the same way. *)
Definition state_independent {A} (m : M A) : Prop :=
  ∀ w, m w = (extend w (fst (m fresh)), snd (m fresh)).

(** The keys [security_status] may put. *)
Definition security_keys : list string :=
  ["securityState"; "securityIssuesFound"; "securityStateErrorInfo"].

(** The values [securityState] may take. *)
Definition security_states : list string :=
  ["SECURED_KERBEROS"; "UNSECURED"; "ERROR"].

(** A call to one of the three [security_commons] functions. *)
Definition is_library_call (ev : Event) : bool :=
  is_config_read ev || is_validation ev || is_credential_check ev.

(** ** The paths through [security_status] *)

Section Paths.

Variable config_reader : string → list string → PyException + SecurityParams.
Variable validator : SecurityParams → Dict ExpectationSet → Dict string.
Variable credential_check : KinitArgs → PyException + unit.

(** Where a run of [security_status] from the fresh state can end: one
    constructor per path of the source, with the conditions that select the
    path and the state and result it ends in. *)
Inductive SecurityRun (sp : StatusParams)
    : World * (PyException + unit) → Prop :=
  | RunDisabled :
      security_enabled sp = false →
      SecurityRun sp
        (mkWorld {[ "securityState" := "UNSECURED" ]}
           [EvSetParams "status_params";
            EvPutStructuredOut {[ "securityState" := "UNSECURED" ]}],
         inr tt)
  | RunReadFails e :
      security_enabled sp = true →
      config_reader (hadoop_conf_dir sp) ["core-site.xml"] = inl e →
      SecurityRun sp
        (mkWorld ∅
           [EvSetParams "status_params";
            EvGetParams (hadoop_conf_dir sp) ["core-site.xml"]],
         inl e)
  | RunIssuesFound params item items issues :
      security_enabled sp = true →
      config_reader (hadoop_conf_dir sp) ["core-site.xml"] = inr params →
      validator params hdfs_expectations = item :: items →
      SecurityRun sp
        (mkWorld
           {[ "securityIssuesFound" := issues;
              "securityState" := "UNSECURED" ]}
           [EvSetParams "status_params";
            EvGetParams (hadoop_conf_dir sp) ["core-site.xml"];
            EvValidate params hdfs_expectations;
            EvPutStructuredOut {[ "securityIssuesFound" := issues ]};
            EvPutStructuredOut {[ "securityState" := "UNSECURED" ]}],
         inr tt)
  | RunNoIdentity params :
      security_enabled sp = true →
      config_reader (hadoop_conf_dir sp) ["core-site.xml"] = inr params →
      validator params hdfs_expectations = [] →
      py_truthy (hdfs_user_principal sp) || py_truthy (hdfs_user_keytab sp)
        = false →
      SecurityRun sp
        (mkWorld
           {[ "securityIssuesFound" :=
                "hdfs principal and/or keytab file is not specified";
              "securityState" := "UNSECURED" ]}
           [EvSetParams "status_params";
            EvGetParams (hadoop_conf_dir sp) ["core-site.xml"];
            EvValidate params hdfs_expectations;
            EvPutStructuredOut
              {[ "securityIssuesFound" :=
                   "hdfs principal and/or keytab file is not specified" ]};
            EvPutStructuredOut {[ "securityState" := "UNSECURED" ]}],
         inr tt)
  | RunKinitOk params :
      security_enabled sp = true →
      config_reader (hadoop_conf_dir sp) ["core-site.xml"] = inr params →
      validator params hdfs_expectations = [] →
      py_truthy (hdfs_user_principal sp) || py_truthy (hdfs_user_keytab sp)
        = true →
      credential_check (kinit_args sp) = inr tt →
      SecurityRun sp
        (mkWorld {[ "securityState" := "SECURED_KERBEROS" ]}
           [EvSetParams "status_params";
            EvGetParams (hadoop_conf_dir sp) ["core-site.xml"];
            EvValidate params hdfs_expectations;
            EvKinit (kinit_args sp);
            EvPutStructuredOut {[ "securityState" := "SECURED_KERBEROS" ]}],
         inr tt)
  | RunKinitEscapes params e :
      security_enabled sp = true →
      config_reader (hadoop_conf_dir sp) ["core-site.xml"] = inr params →
      validator params hdfs_expectations = [] →
      py_truthy (hdfs_user_principal sp) || py_truthy (hdfs_user_keytab sp)
        = true →
      credential_check (kinit_args sp) = inl e →
      is_Exception e = false →
      SecurityRun sp
        (mkWorld ∅
           [EvSetParams "status_params";
            EvGetParams (hadoop_conf_dir sp) ["core-site.xml"];
            EvValidate params hdfs_expectations;
            EvKinit (kinit_args sp)],
         inl e)
  | RunKinitFails params e :
      security_enabled sp = true →
      config_reader (hadoop_conf_dir sp) ["core-site.xml"] = inr params →
      validator params hdfs_expectations = [] →
      py_truthy (hdfs_user_principal sp) || py_truthy (hdfs_user_keytab sp)
        = true →
      credential_check (kinit_args sp) = inl e →
      is_Exception e = true →
      SecurityRun sp
        (mkWorld
           {[ "securityState" := "ERROR";
              "securityStateErrorInfo" := py_str e ]}
           [EvSetParams "status_params";
            EvGetParams (hadoop_conf_dir sp) ["core-site.xml"];
            EvValidate params hdfs_expectations;
            EvKinit (kinit_args sp);
            EvPutStructuredOut {[ "securityState" := "ERROR" ]};
            EvPutStructuredOut {[ "securityStateErrorInfo" := py_str e ]}],
         inr tt).

End Paths.

(** More of the sample deployment. *)
Module SampleHost.

Definition reader_raises (e : PyException)
    : string → list string → PyException + SecurityParams :=
  fun _ _ => inl e.

Definition keytab_only : StatusParams :=
  Sample.status_params true None
    (Some "/etc/security/keytabs/hdfs.headless.keytab").

Definition compare_raises (e : PyException)
    : string → string → PyException + Z :=
  fun _ _ => inl e.

Definition shell_fails (e : PyException) : string → PyException + unit :=
  fun _ => inl e.

(** Package installation seen through the commands it runs. *)
Definition install_packages_ok (exclude : list string) : M unit :=
  emit (EvExecute "/usr/bin/yum -d 0 -e 0 -y install hadoop_2_2_*").

Definition install_packages_fails (e : PyException) (exclude : list string)
    : M unit :=
  emit (EvExecute "/usr/bin/yum -d 0 -e 0 -y install hadoop_2_2_*") ;;;
  raise e.

Definition hdfs_ok : M unit :=
  emit (EvExecute "mkdir -p /etc/security/limits.d").

End SampleHost.

(** * Properties *)

(** ** Strings and dictionaries *)

Lemma string_append_assoc (a b c : string) : (a +:+ b) +:+ c = a +:+ b +:+ c.
Proof.
  induction a as [|x a IH]; [reflexivity |].
  change (String x ((a +:+ b) +:+ c) = String x (a +:+ b +:+ c)).
  by rewrite IH.
Qed.

Lemma string_append_empty_r (a : string) : a +:+ "" = a.
Proof.
  induction a as [|x a IH]; [reflexivity |].
  change (String x (a +:+ "") = String x a).
  by rewrite IH.
Qed.

Lemma dict_get_head {V} (d : Dict V) k v : dict_get ((k, v) :: d) k = Some v.
Proof. simpl. by rewrite String.eqb_refl. Qed.

Lemma dict_get_tail {V} (d : Dict V) k k' v :
  k ≠ k' → dict_get ((k', v) :: d) k = dict_get d k.
Proof.
  intros Hne. simpl. destruct (String.eqb_spec k k'); [contradiction | done].
Qed.

(** Every key a dictionary iterates over can be looked up. *)
Lemma dict_get_key {V} (d : Dict V) k : k ∈ dict_keys d → is_Some (dict_get d k).
Proof.
  induction d as [|[k' v] d IH]; simpl.
  - intros H. by apply elem_of_nil in H.
  - intros H. destruct (String.eqb_spec k k') as [->|Hne]; [by eexists |].
    apply elem_of_cons in H as [H|H]; [contradiction | by apply IH].
Qed.

(** In a well-formed dictionary the lookup of an item's key is its value. *)
Lemma dict_get_item {V} (d : Dict V) :
  dict_wf d = true → Forall (fun kv => dict_get d kv.1 = Some kv.2) d.
Proof.
  induction d as [|[k v] d IH]; [constructor |].
  cbn [dict_wf]. intros Hwf. apply andb_prop in Hwf as [Hk Hwf].
  apply negb_true_iff, bool_decide_eq_false in Hk.
  constructor; [apply dict_get_head |].
  specialize (IH Hwf). rewrite Forall_forall in IH |- *.
  intros [k' v'] Hin. specialize (IH _ Hin). cbn [fst snd] in IH |- *.
  rewrite dict_get_tail; [exact IH |].
  intros ->. apply Hk. unfold dict_keys.
  apply list_elem_of_fmap. by exists (k, v').
Qed.

(** ** The loop that gathers the issues *)

Lemma collect_issues_items d items acc w :
  Forall (fun kv => dict_get d kv.1 = Some kv.2) items →
  collect_issues d (dict_keys items) acc w
  = (w, inr (acc +:+ concat_strings (map issue_line items))).
Proof.
  intros Hitems. revert acc.
  induction Hitems as [|[k v] items Hk _ IH]; intros acc.
  - simpl. by rewrite string_append_empty_r.
  - cbn [dict_keys map fst collect_issues concat_strings].
    unfold bind, dict_getitem. cbn [fst snd] in Hk. rewrite Hk.
    unfold ret. fold (dict_keys items). rewrite IH.
    by rewrite string_append_assoc.
Qed.

(** The loop raises no [KeyError]: it looks up the keys it iterates over. *)
Lemma collect_issues_total d cfs acc :
  Forall (fun k => k ∈ dict_keys d) cfs →
  ∃ issues, ∀ w, collect_issues d cfs acc w = (w, inr issues).
Proof.
  intros Hcfs. revert acc.
  induction Hcfs as [|k cfs Hk _ IH]; intros acc; [by eexists |].
  cbn [collect_issues]. unfold bind, dict_getitem.
  destruct (dict_get_key d k Hk) as [v ->]. unfold ret. apply IH.
Qed.

Lemma collect_issues_own_keys d :
  ∃ issues, ∀ w, collect_issues d (dict_keys d) "" w = (w, inr issues).
Proof. apply collect_issues_total. by apply Forall_forall. Qed.

(** ** The runs of [security_status], path by path *)

Ltac unfold_hook :=
  unfold security_status, pre_rolling_restart, status,
    get_params_from_filesystem, validate_security_config_properties,
    cached_kinit_executor, Execute, try_except, bind, raise, set_params,
    emit, put_structured_out, lift, ret, fresh;
  cbn beta iota delta [structuredOut trace app].

Ltac step H := rewrite H; cbn beta iota delta [structuredOut trace app].

Section Runs.

Variable config_reader : string → list string → PyException + SecurityParams.
Variable validator : SecurityParams → Dict ExpectationSet → Dict string.
Variable credential_check : KinitArgs → PyException + unit.

Let hook := security_status config_reader validator credential_check.

Lemma run_disabled sp :
  security_enabled sp = false →
  hook sp fresh =
    (mkWorld {[ "securityState" := "UNSECURED" ]}
       [EvSetParams "status_params";
        EvPutStructuredOut {[ "securityState" := "UNSECURED" ]}],
     inr tt).
Proof. intros Hsec. unfold hook. unfold_hook. step Hsec. reflexivity. Qed.

Lemma run_read_fails sp e :
  security_enabled sp = true →
  config_reader (hadoop_conf_dir sp) ["core-site.xml"] = inl e →
  hook sp fresh =
    (mkWorld ∅
       [EvSetParams "status_params";
        EvGetParams (hadoop_conf_dir sp) ["core-site.xml"]],
     inl e).
Proof.
  intros Hsec Hread. unfold hook. unfold_hook. step Hsec. step Hread.
  reflexivity.
Qed.

Lemma run_issues_found sp params item items issues :
  security_enabled sp = true →
  config_reader (hadoop_conf_dir sp) ["core-site.xml"] = inr params →
  validator params hdfs_expectations = item :: items →
  (∀ w, collect_issues (item :: items) (dict_keys (item :: items)) "" w
        = (w, inr issues)) →
  hook sp fresh =
    (mkWorld
       {[ "securityIssuesFound" := issues; "securityState" := "UNSECURED" ]}
       [EvSetParams "status_params";
        EvGetParams (hadoop_conf_dir sp) ["core-site.xml"];
        EvValidate params hdfs_expectations;
        EvPutStructuredOut {[ "securityIssuesFound" := issues ]};
        EvPutStructuredOut {[ "securityState" := "UNSECURED" ]}],
     inr tt).
Proof.
  intros Hsec Hread Hval Hloop. unfold hook. unfold hdfs_expectations in *.
  unfold_hook. step Hsec. step Hread. step Hval. step Hloop. reflexivity.
Qed.

Lemma run_no_identity sp params :
  security_enabled sp = true →
  config_reader (hadoop_conf_dir sp) ["core-site.xml"] = inr params →
  validator params hdfs_expectations = [] →
  py_truthy (hdfs_user_principal sp) || py_truthy (hdfs_user_keytab sp)
    = false →
  hook sp fresh =
    (mkWorld
       {[ "securityIssuesFound" :=
            "hdfs principal and/or keytab file is not specified";
          "securityState" := "UNSECURED" ]}
       [EvSetParams "status_params";
        EvGetParams (hadoop_conf_dir sp) ["core-site.xml"];
        EvValidate params hdfs_expectations;
        EvPutStructuredOut
          {[ "securityIssuesFound" :=
               "hdfs principal and/or keytab file is not specified" ]};
        EvPutStructuredOut {[ "securityState" := "UNSECURED" ]}],
     inr tt).
Proof.
  intros Hsec Hread Hval Hid. unfold hook. unfold hdfs_expectations in *.
  unfold_hook. step Hsec. step Hread. step Hval. step Hid. reflexivity.
Qed.

Lemma run_kinit_ok sp params :
  security_enabled sp = true →
  config_reader (hadoop_conf_dir sp) ["core-site.xml"] = inr params →
  validator params hdfs_expectations = [] →
  py_truthy (hdfs_user_principal sp) || py_truthy (hdfs_user_keytab sp)
    = true →
  credential_check (kinit_args sp) = inr tt →
  hook sp fresh =
    (mkWorld {[ "securityState" := "SECURED_KERBEROS" ]}
       [EvSetParams "status_params";
        EvGetParams (hadoop_conf_dir sp) ["core-site.xml"];
        EvValidate params hdfs_expectations;
        EvKinit (kinit_args sp);
        EvPutStructuredOut {[ "securityState" := "SECURED_KERBEROS" ]}],
     inr tt).
Proof.
  intros Hsec Hread Hval Hid Hkinit. unfold hook.
  unfold hdfs_expectations, kinit_args in *.
  unfold_hook. step Hsec. step Hread. step Hval. step Hid. step Hkinit.
  reflexivity.
Qed.

Lemma run_kinit_escapes sp params e :
  security_enabled sp = true →
  config_reader (hadoop_conf_dir sp) ["core-site.xml"] = inr params →
  validator params hdfs_expectations = [] →
  py_truthy (hdfs_user_principal sp) || py_truthy (hdfs_user_keytab sp)
    = true →
  credential_check (kinit_args sp) = inl e →
  is_Exception e = false →
  hook sp fresh =
    (mkWorld ∅
       [EvSetParams "status_params";
        EvGetParams (hadoop_conf_dir sp) ["core-site.xml"];
        EvValidate params hdfs_expectations;
        EvKinit (kinit_args sp)],
     inl e).
Proof.
  intros Hsec Hread Hval Hid Hkinit Hclass. unfold hook.
  unfold hdfs_expectations, kinit_args in *.
  unfold_hook. step Hsec. step Hread. step Hval. step Hid. step Hkinit.
  step Hclass. reflexivity.
Qed.

Lemma run_kinit_fails sp params e :
  security_enabled sp = true →
  config_reader (hadoop_conf_dir sp) ["core-site.xml"] = inr params →
  validator params hdfs_expectations = [] →
  py_truthy (hdfs_user_principal sp) || py_truthy (hdfs_user_keytab sp)
    = true →
  credential_check (kinit_args sp) = inl e →
  is_Exception e = true →
  hook sp fresh =
    (mkWorld
       {[ "securityState" := "ERROR"; "securityStateErrorInfo" := py_str e ]}
       [EvSetParams "status_params";
        EvGetParams (hadoop_conf_dir sp) ["core-site.xml"];
        EvValidate params hdfs_expectations;
        EvKinit (kinit_args sp);
        EvPutStructuredOut {[ "securityState" := "ERROR" ]};
        EvPutStructuredOut {[ "securityStateErrorInfo" := py_str e ]}],
     inr tt).
Proof.
  intros Hsec Hread Hval Hid Hkinit Hclass. unfold hook.
  unfold hdfs_expectations, kinit_args in *.
  unfold_hook. step Hsec. step Hread. step Hval. step Hid. step Hkinit.
  step Hclass. reflexivity.
Qed.

End Runs.

(** ** The validator meets its contract *)

Module SecurityCommonsFacts.

Import SecurityCommons.

Lemma first_failure_none {A} (check : A → option ValidationFailure)
    (P : A → Prop) (rules : list A) :
  (∀ r, P r → check r = None) →
  Forall P rules → first_failure check rules = None.
Proof.
  intros Hcheck Hall.
  induction Hall as [|r rules Hr _ IH]; [reflexivity |].
  simpl. by rewrite (Hcheck r Hr).
Qed.

Lemma first_failure_none_inv {A} (check : A → option ValidationFailure)
    (P : A → Prop) (rules : list A) :
  (∀ r, check r = None → P r) →
  first_failure check rules = None → Forall P rules.
Proof.
  intros Hcheck. induction rules as [|r rules IH]; [constructor |].
  simpl. destruct (check r) eqn:Hr; [discriminate |].
  intros Hrest. constructor; [by apply Hcheck | by apply IH].
Qed.

Lemma check_value_none actual rule :
  check_value actual rule = None ↔ value_met actual rule.
Proof.
  unfold check_value, value_met. destruct (dict_get actual rule.1) as [v|].
  - destruct (String.eqb_spec v rule.2) as [->|Hne]; split;
      try done; intros [=]; congruence.
  - split; discriminate.
Qed.

Lemma check_non_empty_none actual property :
  check_non_empty actual property = None ↔ non_empty_met actual property.
Proof.
  unfold check_non_empty, non_empty_met.
  destruct (dict_get actual property) as [v|].
  - destruct (String.eqb_spec v "") as [->|Hne]; split; try done.
    + intros (v & [= <-] & Hne). contradiction.
    + intros _. by exists v.
  - split; [discriminate | by intros (v & [=] & _)].
Qed.

Lemma check_readable_none actual property :
  check_readable actual property = None ↔ readable_met actual property.
Proof.
  unfold check_readable, readable_met.
  destruct (dict_get actual property) as [v|]; split; done.
Qed.

Lemma check_source_none params rule :
  check_source (actual_values params rule.1) rule.2 = None
  ↔ source_met params rule.
Proof.
  unfold check_source, source_met. cbv zeta. split.
  - destruct (first_failure (check_value _) _) eqn:Hv; [discriminate |].
    destruct (first_failure (check_non_empty _) _) eqn:He; [discriminate |].
    intros Hr. repeat split.
    + eapply first_failure_none_inv; [|exact Hv].
      intros r. apply check_value_none.
    + eapply first_failure_none_inv; [|exact He].
      intros r. apply check_non_empty_none.
    + eapply first_failure_none_inv; [|exact Hr].
      intros r. apply check_readable_none.
  - intros (Hv & He & Hr).
    rewrite (first_failure_none (check_value _) (value_met _) _
               (fun r => proj2 (check_value_none _ r)) Hv).
    rewrite (first_failure_none (check_non_empty _) (non_empty_met _) _
               (fun r => proj2 (check_non_empty_none _ r)) He).
    exact (first_failure_none (check_readable _) (readable_met _) _
             (fun r => proj2 (check_readable_none _ r)) Hr).
Qed.

(** Validation passes exactly when every expectation is met. *)
Lemma validate_passes describe params rules :
  validate_security_config_properties describe params rules = []
  ↔ expectations_met params rules.
Proof.
  unfold expectations_met. induction rules as [|[config_file es] rules IH].
  - split; [constructor | reflexivity].
  - cbn [validate_security_config_properties].
    pose proof (check_source_none params (config_file, es)) as Hsrc.
    cbn [fst snd] in Hsrc.
    destruct (check_source (actual_values params config_file) es) eqn:Hc.
    + split; [discriminate |]. intros Hall.
      apply Forall_cons in Hall as [Hmet _].
      apply Hsrc in Hmet. discriminate.
    + rewrite IH. split.
      * intros Hall. constructor; [by apply Hsrc | exact Hall].
      * intros Hall. by apply Forall_cons in Hall as [_ Hall].
Qed.

End SecurityCommonsFacts.

(** ** When the credential check runs *)

Section CredentialCheck.

Variable config_reader : string → list string → PyException + SecurityParams.
Variable validator : SecurityParams → Dict ExpectationSet → Dict string.
Variable credential_check : KinitArgs → PyException + unit.

Let hook := security_status config_reader validator credential_check.

(** After a passed validation the check runs only if the guard on the
    principal and the keytab holds. *)
Lemma credential_check_guard sp params :
  security_enabled sp = true →
  config_reader (hadoop_conf_dir sp) ["core-site.xml"] = inr params →
  validator params hdfs_expectations = [] →
  existsb is_credential_check (calls (hook sp)) = true →
  py_truthy (hdfs_user_principal sp) || py_truthy (hdfs_user_keytab sp) = true.
Proof.
  intros Hsec Hread Hval Hcalls.
  destruct (py_truthy (hdfs_user_principal sp)
            || py_truthy (hdfs_user_keytab sp)) eqn:Hid; [reflexivity |].
  unfold calls, hook in Hcalls.
  rewrite (run_no_identity _ _ _ sp params Hsec Hread Hval Hid) in Hcalls.
  discriminate Hcalls.
Qed.

End CredentialCheck.

(** * The claims *)

(** C7: with security disabled, [security_status] reports exactly
    [{securityState: UNSECURED}] and returns at once: whatever the
    expectations, the configuration reader and the credential check are, it
    reads no configuration, validates nothing and checks no credential. *)
Theorem security_status_disabled_short_circuits
    (config_reader : string → list string → PyException + SecurityParams)
    (validator : SecurityParams → Dict ExpectationSet → Dict string)
    (credential_check : KinitArgs → PyException + unit)
    (sp : StatusParams) :
  security_enabled sp = false →
  report (security_status config_reader validator credential_check sp)
    = {[ "securityState" := "UNSECURED" ]}
  ∧ outcome (security_status config_reader validator credential_check sp)
    = inr tt
  ∧ calls (security_status config_reader validator credential_check sp)
    = [EvSetParams "status_params";
       EvPutStructuredOut {[ "securityState" := "UNSECURED" ]}]
  ∧ Forall (fun ev => is_config_read ev = false ∧ is_validation ev = false
                      ∧ is_credential_check ev = false)
      (calls (security_status config_reader validator credential_check sp)).
Proof.
  intros Hsec. unfold report, outcome, calls.
  rewrite (run_disabled _ _ _ sp Hsec). cbn [fst snd structuredOut trace].
  repeat split; repeat constructor.
Qed.

Lemma security_status_disabled_short_circuits_witness :
  security_enabled Sample.unsecured = false
  ∧ report (security_status (Sample.reads Sample.kerberos_core_site)
              Sample.validator Sample.kinit_succeeds Sample.unsecured)
    = {[ "securityState" := "UNSECURED" ]}.
Proof.
  split; [reflexivity |].
  apply (security_status_disabled_short_circuits
           (Sample.reads Sample.kerberos_core_site) Sample.validator
           Sample.kinit_succeeds Sample.unsecured).
  reflexivity.
Defined.

(** C9: for every state of the script, [status] fails with the
    [ClientComponentHasNoStatus] signal; it never returns normally, and it
    leaves the structured output and the trace of calls untouched, so no
    status is reported. *)
Theorem status_always_raises (w : World) :
  ∃ e, status w = (w, inl e) ∧ exc_class e = "ClientComponentHasNoStatus".
Proof. eexists. split; reflexivity. Qed.

(** C6: on every path through [security_status], whatever the capabilities
    answer, the report holds [securityStateErrorInfo] only together with
    [securityState = ERROR] and [securityIssuesFound] only together with
    [securityState = UNSECURED]. *)
Theorem security_status_report_invariant
    (config_reader : string → list string → PyException + SecurityParams)
    (validator : SecurityParams → Dict ExpectationSet → Dict string)
    (credential_check : KinitArgs → PyException + unit)
    (sp : StatusParams) :
  report_invariant
    (report (security_status config_reader validator credential_check sp)).
Proof.
  unfold report.
  destruct (security_enabled sp) eqn:Hsec;
    [| rewrite (run_disabled _ _ _ sp Hsec); split; intros [v Hv];
       first [reflexivity | discriminate Hv]].
  destruct (config_reader (hadoop_conf_dir sp) ["core-site.xml"])
    as [e|params] eqn:Hread;
    [rewrite (run_read_fails _ _ _ sp e Hsec Hread); split; intros [v Hv];
     first [reflexivity | discriminate Hv] |].
  destruct (validator params hdfs_expectations) as [|item items] eqn:Hval.
  - destruct (py_truthy (hdfs_user_principal sp)
              || py_truthy (hdfs_user_keytab sp)) eqn:Hid;
      [| rewrite (run_no_identity _ _ _ sp params Hsec Hread Hval Hid);
         split; intros [v Hv]; first [reflexivity | discriminate Hv]].
    destruct (credential_check (kinit_args sp)) as [e|[]] eqn:Hkinit.
    + destruct (is_Exception e) eqn:Hclass.
      * rewrite (run_kinit_fails _ _ _ sp params e Hsec Hread Hval Hid Hkinit
                   Hclass).
        split; intros [v Hv]; first [reflexivity | discriminate Hv].
      * rewrite (run_kinit_escapes _ _ _ sp params e Hsec Hread Hval Hid
                   Hkinit Hclass).
        split; intros [v Hv]; first [reflexivity | discriminate Hv].
    + rewrite (run_kinit_ok _ _ _ sp params Hsec Hread Hval Hid Hkinit).
      split; intros [v Hv]; first [reflexivity | discriminate Hv].
  - destruct (collect_issues_own_keys (item :: items)) as [issues Hloop].
    rewrite (run_issues_found _ _ _ sp params item items issues
               Hsec Hread Hval Hloop).
    split; intros [v Hv]; first [reflexivity | discriminate Hv].
Qed.

(** C8: [pre_rolling_restart] runs [hdp-select set hadoop-client <version>]
    exactly when a version is set and its formatted form compares at or
    above [2.2.0.0]; when the version is unset, empty or compares below the
    threshold, or the comparison fails, no command is executed. *)
Theorem pre_rolling_restart_version_gate
    (compare_versions : string → string → PyException + Z)
    (format_hdp_stack_version : option string → string)
    (shell : string → PyException + unit)
    (params : Params) :
  (∀ v,
     version_reaches_threshold compare_versions format_hdp_stack_version
       params v →
     calls (pre_rolling_restart compare_versions format_hdp_stack_version
              shell params)
     = [EvSetParams "params";
        EvExecute ("hdp-select set hadoop-client " +:+ v)])
  ∧ ((¬ ∃ v, version_reaches_threshold compare_versions
               format_hdp_stack_version params v) →
     calls (pre_rolling_restart compare_versions format_hdp_stack_version
              shell params)
     = [EvSetParams "params"]).
Proof.
  unfold version_reaches_threshold, calls. split.
  - intros v (Hv & Hne & c & Hcmp & Hc). unfold_hook.
    rewrite Hv. cbn [py_truthy].
    destruct (String.eqb_spec v "") as [->|_]; [contradiction |].
    cbn [negb]. step Hcmp.
    destruct (Z.geb_spec c 0) as [_|Hlt]; [| lia].
    by destruct (shell _).
  - intros Hno. unfold_hook.
    destruct (version params) as [v|] eqn:Hv; cbn [py_truthy];
      [| reflexivity].
    destruct (String.eqb_spec v "") as [->|Hne]; cbn [negb]; [reflexivity |].
    destruct (compare_versions _ _) as [e|c] eqn:Hcmp; [reflexivity |].
    cbn beta iota delta [structuredOut trace app].
    destruct (Z.geb_spec c 0) as [Hge|_]; [| reflexivity].
    exfalso. apply Hno. exists v. repeat split; try done.
    exists c. split; [exact Hcmp | lia].
Qed.

Lemma pre_rolling_restart_version_gate_witness :
  version_reaches_threshold Sample.compare_versions
    Sample.format_hdp_stack_version (mkParams (Some "2.2.1.0")) "2.2.1.0"
  ∧ calls (pre_rolling_restart Sample.compare_versions
             Sample.format_hdp_stack_version Sample.shell
             (mkParams (Some "2.2.1.0")))
    = [EvSetParams "params";
       EvExecute "hdp-select set hadoop-client 2.2.1.0"].
Proof.
  assert (Hgate : version_reaches_threshold Sample.compare_versions
                    Sample.format_hdp_stack_version
                    (mkParams (Some "2.2.1.0")) "2.2.1.0").
  { split; [reflexivity |]. split; [discriminate |].
    exists 1. split; [reflexivity | lia]. }
  split; [exact Hgate |].
  exact (proj1 (pre_rolling_restart_version_gate Sample.compare_versions
                  Sample.format_hdp_stack_version Sample.shell
                  (mkParams (Some "2.2.1.0"))) "2.2.1.0" Hgate).
Defined.

(** C2: with security enabled, when the configuration read meets every
    value and non-empty expectation, both the principal and the keytab are
    configured and the credential check succeeds, [security_status] reports
    exactly [{securityState: SECURED_KERBEROS}], with no
    [securityIssuesFound] and no [securityStateErrorInfo], and returns
    normally. *)
Theorem security_status_secured_kerberos
    (describe : SecurityCommons.ValidationFailure → string)
    (config_reader : string → list string → PyException + SecurityParams)
    (credential_check : KinitArgs → PyException + unit)
    (sp : StatusParams) (params : SecurityParams) :
  security_enabled sp = true →
  config_reader (hadoop_conf_dir sp) ["core-site.xml"] = inr params →
  SecurityCommons.expectations_met params hdfs_expectations →
  py_truthy (hdfs_user_principal sp) = true →
  py_truthy (hdfs_user_keytab sp) = true →
  credential_check (kinit_args sp) = inr tt →
  report (security_status config_reader
            (SecurityCommons.validate_security_config_properties describe)
            credential_check sp)
    = {[ "securityState" := "SECURED_KERBEROS" ]}
  ∧ report (security_status config_reader
              (SecurityCommons.validate_security_config_properties describe)
              credential_check sp) !! "securityIssuesFound" = None
  ∧ report (security_status config_reader
              (SecurityCommons.validate_security_config_properties describe)
              credential_check sp) !! "securityStateErrorInfo" = None
  ∧ outcome (security_status config_reader
               (SecurityCommons.validate_security_config_properties describe)
               credential_check sp) = inr tt.
Proof.
  intros Hsec Hread Hmet Hprincipal Hkeytab Hkinit.
  apply (SecurityCommonsFacts.validate_passes describe) in Hmet.
  assert (Hid : py_truthy (hdfs_user_principal sp)
                || py_truthy (hdfs_user_keytab sp) = true)
    by (by rewrite Hprincipal).
  unfold report, outcome.
  rewrite (run_kinit_ok _ _ _ sp params Hsec Hread Hmet Hid Hkinit).
  repeat split.
Qed.

Lemma security_status_secured_kerberos_witness :
  SecurityCommons.expectations_met Sample.kerberos_core_site hdfs_expectations
  ∧ report (security_status (Sample.reads Sample.kerberos_core_site)
              (SecurityCommons.validate_security_config_properties
                 Sample.describe)
              Sample.kinit_succeeds Sample.secured)
    = {[ "securityState" := "SECURED_KERBEROS" ]}.
Proof.
  assert (Hmet : SecurityCommons.expectations_met Sample.kerberos_core_site
                   hdfs_expectations).
  { repeat constructor. exists "DEFAULT". split; [reflexivity | discriminate]. }
  split; [exact Hmet |].
  apply (security_status_secured_kerberos Sample.describe
           (Sample.reads Sample.kerberos_core_site) Sample.kinit_succeeds
           Sample.secured Sample.kerberos_core_site);
    first [reflexivity | exact Hmet].
Defined.

(** C3: with security enabled, when validation fails for one or more
    configuration sources, [security_status] reports [securityState =
    UNSECURED] and as [securityIssuesFound] the concatenation, in the
    iteration order of the validation result, of "Configuration file
    <source> did not pass the validation. Reason: <reason>" over the failing
    sources; for the single failing source [core-site] with reason [R] this
    is "Configuration file core-site did not pass the validation. Reason:
    R". *)
Theorem security_status_validation_issues
    (config_reader : string → list string → PyException + SecurityParams)
    (validator : SecurityParams → Dict ExpectationSet → Dict string)
    (credential_check : KinitArgs → PyException + unit)
    (sp : StatusParams) (params : SecurityParams) (issues : Dict string) :
  security_enabled sp = true →
  config_reader (hadoop_conf_dir sp) ["core-site.xml"] = inr params →
  validator params hdfs_expectations = issues →
  issues ≠ [] →
  dict_wf issues = true →
  report (security_status config_reader validator credential_check sp)
    = {[ "securityIssuesFound" := concat_strings (map issue_line issues);
         "securityState" := "UNSECURED" ]}
  ∧ outcome (security_status config_reader validator credential_check sp)
    = inr tt
  ∧ ∀ R, issues = [("core-site", R)] →
      report (security_status config_reader validator credential_check sp)
        !! "securityIssuesFound"
      = Some ("Configuration file core-site did not pass the validation. Reason: "
              +:+ R).
Proof.
  intros Hsec Hread Hval Hne Hwf.
  destruct issues as [|item items]; [contradiction |].
  assert (Hloop : ∀ w,
             collect_issues (item :: items) (dict_keys (item :: items)) "" w
             = (w, inr (concat_strings (map issue_line (item :: items))))).
  { intros w. by rewrite (collect_issues_items _ _ "" w (dict_get_item _ Hwf)). }
  unfold report, outcome.
  rewrite (run_issues_found _ _ _ sp params item items _
             Hsec Hread Hval Hloop).
  cbn [fst snd structuredOut]. repeat split.
  intros R [= -> ->]. cbn [map concat_strings issue_line fst snd].
  rewrite lookup_insert_eq. f_equal.
  by rewrite string_append_empty_r.
Qed.

Lemma security_status_validation_issues_witness :
  Sample.validator Sample.simple_core_site hdfs_expectations
    = [("core-site",
        "Property hadoop.security.authentication is expected to be kerberos")]
  ∧ report (security_status (Sample.reads Sample.simple_core_site)
              Sample.validator Sample.kinit_succeeds Sample.secured)
    = {[ "securityIssuesFound" :=
           "Configuration file core-site did not pass the validation. Reason: Property hadoop.security.authentication is expected to be kerberos";
         "securityState" := "UNSECURED" ]}.
Proof.
  split; [reflexivity |].
  apply (security_status_validation_issues
           (Sample.reads Sample.simple_core_site) Sample.validator
           Sample.kinit_succeeds Sample.secured Sample.simple_core_site
           [("core-site",
             "Property hadoop.security.authentication is expected to be kerberos")]);
    first [reflexivity | discriminate].
Defined.

(** C4: with security enabled, when validation passes and neither a
    principal nor a keytab is configured, [security_status] reports
    [securityState = UNSECURED] with a [securityIssuesFound] text that
    contains "principal and/or keytab file is not specified". *)
Theorem security_status_identity_not_specified
    (config_reader : string → list string → PyException + SecurityParams)
    (validator : SecurityParams → Dict ExpectationSet → Dict string)
    (credential_check : KinitArgs → PyException + unit)
    (sp : StatusParams) (params : SecurityParams) :
  security_enabled sp = true →
  config_reader (hadoop_conf_dir sp) ["core-site.xml"] = inr params →
  validator params hdfs_expectations = [] →
  py_truthy (hdfs_user_principal sp) = false →
  py_truthy (hdfs_user_keytab sp) = false →
  report (security_status config_reader validator credential_check sp)
    !! "securityState" = Some "UNSECURED"
  ∧ ∃ found,
      report (security_status config_reader validator credential_check sp)
        !! "securityIssuesFound" = Some found
      ∧ contains found "principal and/or keytab file is not specified".
Proof.
  intros Hsec Hread Hval Hprincipal Hkeytab.
  assert (Hid : py_truthy (hdfs_user_principal sp)
                || py_truthy (hdfs_user_keytab sp) = false)
    by (by rewrite Hprincipal, Hkeytab).
  unfold report.
  rewrite (run_no_identity _ _ _ sp params Hsec Hread Hval Hid).
  cbn [fst structuredOut]. split; [reflexivity |].
  eexists. split; [reflexivity |]. by exists "hdfs ", "".
Qed.

Lemma security_status_identity_not_specified_witness :
  py_truthy (hdfs_user_principal Sample.no_identity) = false
  ∧ py_truthy (hdfs_user_keytab Sample.no_identity) = false
  ∧ report (security_status (Sample.reads Sample.kerberos_core_site)
              Sample.validator Sample.kinit_succeeds Sample.no_identity)
      !! "securityState" = Some "UNSECURED".
Proof.
  split; [reflexivity |]. split; [reflexivity |].
  apply (security_status_identity_not_specified
           (Sample.reads Sample.kerberos_core_site) Sample.validator
           Sample.kinit_succeeds Sample.no_identity
           Sample.kerberos_core_site); reflexivity.
Defined.

(** C5: with security enabled, validation passed and the credential check
    invoked, a check that fails with an exception (an instance of
    [Exception], as a credential error is) whose message is "boom" makes
    [security_status] report exactly [{securityState: ERROR,
    securityStateErrorInfo: boom}]; the hook returns normally, the
    exception does not leave it. *)
Theorem security_status_credential_error_boom
    (config_reader : string → list string → PyException + SecurityParams)
    (validator : SecurityParams → Dict ExpectationSet → Dict string)
    (credential_check : KinitArgs → PyException + unit)
    (sp : StatusParams) (params : SecurityParams) (e : PyException) :
  security_enabled sp = true →
  config_reader (hadoop_conf_dir sp) ["core-site.xml"] = inr params →
  validator params hdfs_expectations = [] →
  existsb is_credential_check
    (calls (security_status config_reader validator credential_check sp))
    = true →
  credential_check (kinit_args sp) = inl e →
  is_Exception e = true →
  exc_message e = "boom" →
  report (security_status config_reader validator credential_check sp)
    = {[ "securityState" := "ERROR"; "securityStateErrorInfo" := "boom" ]}
  ∧ outcome (security_status config_reader validator credential_check sp)
    = inr tt.
Proof.
  intros Hsec Hread Hval Hcalled Hkinit Hclass Hmsg.
  pose proof (credential_check_guard _ _ _ sp params Hsec Hread Hval Hcalled)
    as Hid.
  unfold report, outcome.
  rewrite (run_kinit_fails _ _ _ sp params e Hsec Hread Hval Hid Hkinit
             Hclass).
  unfold py_str. rewrite Hmsg. split; reflexivity.
Qed.

Lemma security_status_credential_error_boom_witness :
  existsb is_credential_check
    (calls (security_status (Sample.reads Sample.kerberos_core_site)
              Sample.validator
              (Sample.kinit_raises (mkExc "Fail" "boom")) Sample.secured))
    = true
  ∧ report (security_status (Sample.reads Sample.kerberos_core_site)
              Sample.validator
              (Sample.kinit_raises (mkExc "Fail" "boom")) Sample.secured)
    = {[ "securityState" := "ERROR"; "securityStateErrorInfo" := "boom" ]}.
Proof.
  split; [reflexivity |].
  apply (security_status_credential_error_boom
           (Sample.reads Sample.kerberos_core_site) Sample.validator
           (Sample.kinit_raises (mkExc "Fail" "boom")) Sample.secured
           Sample.kerberos_core_site (mkExc "Fail" "boom")); reflexivity.
Defined.




(** C1: the guard before the credential check is a disjunction.  With a
    principal configured and no keytab, after a passed validation,
    [security_status] still calls [cached_kinit_executor], handing it the
    missing keytab, whatever the check then answers. *)
Theorem security_status_kinit_with_principal_only
    (credential_check : KinitArgs → PyException + unit) :
  py_truthy (hdfs_user_principal Sample.principal_only) = true
  ∧ py_truthy (hdfs_user_keytab Sample.principal_only) = false
  ∧ Sample.validator Sample.kerberos_core_site hdfs_expectations = []
  ∧ calls (security_status (Sample.reads Sample.kerberos_core_site)
             Sample.validator credential_check Sample.principal_only)
      !! 3%nat
    = Some (EvKinit (kinit_args Sample.principal_only))
  ∧ keytab_file (kinit_args Sample.principal_only) = None.
Proof.
  repeat split. unfold calls.
  destruct (credential_check (kinit_args Sample.principal_only))
    as [e|[]] eqn:Hkinit.
  - destruct (is_Exception e) eqn:Hclass.
    + by rewrite (run_kinit_fails _ _ _ Sample.principal_only
                    Sample.kerberos_core_site e eq_refl eq_refl eq_refl
                    eq_refl Hkinit Hclass).
    + by rewrite (run_kinit_escapes _ _ _ Sample.principal_only
                    Sample.kerberos_core_site e eq_refl eq_refl eq_refl
                    eq_refl Hkinit Hclass).
  - by rewrite (run_kinit_ok _ _ _ Sample.principal_only
                  Sample.kerberos_core_site eq_refl eq_refl eq_refl eq_refl
                  Hkinit).
Qed.

(** * Further properties of the hooks *)

(** ** Hooks do not look at the state they start from *)

Lemma extend_fresh_l (d : World) : extend fresh d = d.
Proof.
  destruct d as [so tr]. unfold extend, fresh. cbn [structuredOut trace].
  by rewrite (right_id_L ∅ (∪)).
Qed.

Lemma extend_assoc (w d1 d2 : World) :
  extend (extend w d1) d2 = extend w (extend d1 d2).
Proof.
  unfold extend. cbn [structuredOut trace].
  by rewrite (assoc_L (∪)), (assoc_L (++)).
Qed.

Lemma independent_ret {A} (x : A) : state_independent (ret x).
Proof.
  intros [so tr]. unfold ret, extend, fresh. cbn [fst snd structuredOut trace].
  by rewrite (left_id_L ∅ (∪)), (right_id_L [] (++)).
Qed.

Lemma independent_lift {A} (r : PyException + A) : state_independent (lift r).
Proof.
  intros [so tr]. unfold lift, extend, fresh. cbn [fst snd structuredOut trace].
  by rewrite (left_id_L ∅ (∪)), (right_id_L [] (++)).
Qed.

Lemma independent_raise {A} (e : PyException) :
  state_independent (raise (A:=A) e).
Proof. apply (independent_lift (inl e)). Qed.

Lemma independent_emit (ev : Event) : state_independent (emit ev).
Proof.
  intros [so tr]. unfold emit, extend, fresh. cbn [fst snd structuredOut trace].
  by rewrite (left_id_L ∅ (∪)).
Qed.

Lemma independent_put_structured_out (sout : gmap string string) :
  state_independent (put_structured_out sout).
Proof.
  intros [so tr]. unfold put_structured_out, extend, fresh.
  cbn [fst snd structuredOut trace app].
  by rewrite (right_id_L ∅ (∪)).
Qed.

Lemma independent_bind {A B} (m : M A) (f : A → M B) :
  state_independent m → (∀ a, state_independent (f a)) →
  state_independent (bind m f).
Proof.
  intros Hm Hf w. unfold bind. rewrite (Hm w).
  destruct (m fresh) as [d [e|a]]; cbn [fst snd]; [reflexivity |].
  rewrite (Hf a (extend w d)), (Hf a d). cbn [fst snd].
  by rewrite extend_assoc.
Qed.

Lemma independent_try_except {A} (body : M A) (handler : PyException → M A) :
  state_independent body → (∀ e, state_independent (handler e)) →
  state_independent (try_except body handler).
Proof.
  intros Hb Hh w. unfold try_except. rewrite (Hb w).
  destruct (body fresh) as [d [e|a]]; cbn [fst snd]; [| reflexivity].
  destruct (is_Exception e); [| reflexivity].
  rewrite (Hh e (extend w d)), (Hh e d). cbn [fst snd].
  by rewrite extend_assoc.
Qed.

Lemma independent_dict_getitem d k : state_independent (dict_getitem d k).
Proof.
  unfold dict_getitem. destruct (dict_get d k);
    [apply independent_ret | apply independent_raise].
Qed.

Lemma independent_collect_issues d cfs acc :
  state_independent (collect_issues d cfs acc).
Proof.
  revert acc. induction cfs as [|cf cfs IH]; intros acc;
    cbn [collect_issues]; [apply independent_ret |].
  apply independent_bind; [apply independent_dict_getitem |].
  intros reason. apply IH.
Qed.

Create HintDb independent.

#[local] Hint Resolve independent_ret independent_lift independent_raise
  independent_emit independent_put_structured_out independent_dict_getitem
  independent_collect_issues : independent.

Ltac independent :=
  repeat first
    [ apply independent_bind; [| intros ?]
    | apply independent_try_except; [| intros ?]
    | solve [eauto with independent] ].

Section Independence.

Variable config_reader : string → list string → PyException + SecurityParams.
Variable validator : SecurityParams → Dict ExpectationSet → Dict string.
Variable credential_check : KinitArgs → PyException + unit.
Variable compare_versions : string → string → PyException + Z.
Variable format_hdp_stack_version : option string → string.
Variable shell : string → PyException + unit.

Lemma independent_security_status sp :
  state_independent
    (security_status config_reader validator credential_check sp).
Proof.
  unfold security_status, get_params_from_filesystem,
    validate_security_config_properties, cached_kinit_executor, set_params.
  apply independent_bind; [independent |]. intros _.
  destruct (security_enabled sp); [| independent].
  apply independent_bind; [independent |]. intros security_params.
  apply independent_bind; [independent |]. intros [|item items].
  - destruct (_ || _); independent.
  - independent.
Qed.

Lemma independent_pre_rolling_restart params :
  state_independent
    (pre_rolling_restart compare_versions format_hdp_stack_version shell
       params).
Proof.
  unfold pre_rolling_restart, Execute, set_params.
  apply independent_bind; [independent |]. intros _.
  destruct (py_truthy _); [| independent].
  apply independent_bind; [independent |]. intros c.
  destruct (c >=? 0); independent.
Qed.

End Independence.

(** ** Every run of [security_status] follows one of the paths *)

Lemma security_status_run
    (config_reader : string → list string → PyException + SecurityParams)
    (validator : SecurityParams → Dict ExpectationSet → Dict string)
    (credential_check : KinitArgs → PyException + unit)
    (sp : StatusParams) :
  SecurityRun config_reader validator credential_check sp
    (security_status config_reader validator credential_check sp fresh).
Proof.
  destruct (security_enabled sp) eqn:Hsec;
    [| rewrite (run_disabled _ _ _ sp Hsec); by constructor].
  destruct (config_reader (hadoop_conf_dir sp) ["core-site.xml"])
    as [e|params] eqn:Hread;
    [rewrite (run_read_fails _ _ _ sp e Hsec Hread); by constructor |].
  destruct (validator params hdfs_expectations) as [|item items] eqn:Hval.
  - destruct (py_truthy (hdfs_user_principal sp)
              || py_truthy (hdfs_user_keytab sp)) eqn:Hid;
      [| rewrite (run_no_identity _ _ _ sp params Hsec Hread Hval Hid);
         by constructor].
    destruct (credential_check (kinit_args sp)) as [e|[]] eqn:Hkinit.
    + destruct (is_Exception e) eqn:Hclass.
      * rewrite (run_kinit_fails _ _ _ sp params e Hsec Hread Hval Hid Hkinit
                   Hclass).
        by constructor.
      * rewrite (run_kinit_escapes _ _ _ sp params e Hsec Hread Hval Hid
                   Hkinit Hclass).
        by constructor.
    + rewrite (run_kinit_ok _ _ _ sp params Hsec Hread Hval Hid Hkinit).
      by constructor.
  - destruct (collect_issues_own_keys (item :: items)) as [issues Hloop].
    rewrite (run_issues_found _ _ _ sp params item items issues
               Hsec Hread Hval Hloop).
    by econstructor.
Qed.

(** * Further properties: [security_status] *)

(** X1: an exception outside [Exception] ([SystemExit],
    [KeyboardInterrupt], [GeneratorExit]) raised by the credential check is
    not taken by the handler: it leaves [security_status], and the hook has
    reported nothing, no [ERROR] state included. *)
Theorem security_status_non_Exception_escapes
    (config_reader : string → list string → PyException + SecurityParams)
    (validator : SecurityParams → Dict ExpectationSet → Dict string)
    (credential_check : KinitArgs → PyException + unit)
    (sp : StatusParams) (params : SecurityParams) (e : PyException) :
  security_enabled sp = true →
  config_reader (hadoop_conf_dir sp) ["core-site.xml"] = inr params →
  validator params hdfs_expectations = [] →
  py_truthy (hdfs_user_principal sp) || py_truthy (hdfs_user_keytab sp)
    = true →
  credential_check (kinit_args sp) = inl e →
  is_Exception e = false →
  outcome (security_status config_reader validator credential_check sp)
    = inl e
  ∧ report (security_status config_reader validator credential_check sp)
    = ∅.
Proof.
  intros Hsec Hread Hval Hid Hkinit Hclass. unfold outcome, report.
  rewrite (run_kinit_escapes _ _ _ sp params e Hsec Hread Hval Hid Hkinit
             Hclass).
  split; reflexivity.
Qed.

Lemma security_status_non_Exception_escapes_witness :
  is_Exception (mkExc "KeyboardInterrupt" "") = false
  ∧ outcome (security_status (Sample.reads Sample.kerberos_core_site)
               Sample.validator
               (Sample.kinit_raises (mkExc "KeyboardInterrupt" ""))
               Sample.secured)
    = inl (mkExc "KeyboardInterrupt" "").
Proof.
  split; [reflexivity |].
  apply (security_status_non_Exception_escapes
           (Sample.reads Sample.kerberos_core_site) Sample.validator
           (Sample.kinit_raises (mkExc "KeyboardInterrupt" ""))
           Sample.secured Sample.kerberos_core_site
           (mkExc "KeyboardInterrupt" "")); reflexivity.
Defined.

(** X2: when reading the configuration raises, [security_status] reports
    nothing at all: the structured output stays empty, and neither the
    validation nor the credential check is called. *)
Theorem security_status_reader_failure
    (config_reader : string → list string → PyException + SecurityParams)
    (validator : SecurityParams → Dict ExpectationSet → Dict string)
    (credential_check : KinitArgs → PyException + unit)
    (sp : StatusParams) (e : PyException) :
  security_enabled sp = true →
  config_reader (hadoop_conf_dir sp) ["core-site.xml"] = inl e →
  report (security_status config_reader validator credential_check sp) = ∅
  ∧ existsb is_validation
      (calls (security_status config_reader validator credential_check sp))
    = false
  ∧ existsb is_credential_check
      (calls (security_status config_reader validator credential_check sp))
    = false.
Proof.
  intros Hsec Hread. unfold report, calls.
  rewrite (run_read_fails _ _ _ sp e Hsec Hread). repeat split.
Qed.

Lemma security_status_reader_failure_witness :
  report (security_status
            (SampleHost.reader_raises
               (mkExc "IOError" "No such file: core-site.xml"))
            Sample.validator Sample.kinit_succeeds Sample.secured)
  = ∅.
Proof.
  apply (security_status_reader_failure
           (SampleHost.reader_raises
              (mkExc "IOError" "No such file: core-site.xml"))
           Sample.validator Sample.kinit_succeeds Sample.secured
           (mkExc "IOError" "No such file: core-site.xml"));
    reflexivity.
Defined.

(** X3: after a passed validation the credential check is called exactly
    when the principal or the keytab is set, one of them being enough; it is
    then called once, with the keytab, the principal and a 30 second
    expiry. *)
Theorem security_status_credential_check_calls
    (config_reader : string → list string → PyException + SecurityParams)
    (validator : SecurityParams → Dict ExpectationSet → Dict string)
    (credential_check : KinitArgs → PyException + unit)
    (sp : StatusParams) (params : SecurityParams) :
  security_enabled sp = true →
  config_reader (hadoop_conf_dir sp) ["core-site.xml"] = inr params →
  validator params hdfs_expectations = [] →
  filter (fun ev => is_credential_check ev = true)
    (calls (security_status config_reader validator credential_check sp))
  = if py_truthy (hdfs_user_principal sp) || py_truthy (hdfs_user_keytab sp)
    then [EvKinit
            (mkKinitArgs (kinit_path_local sp) (hdfs_user sp)
               (hdfs_user_keytab sp) (hdfs_user_principal sp) (hostname sp)
               (tmp_dir sp) 30)]
    else [].
Proof.
  intros Hsec Hread Hval. unfold calls.
  destruct (py_truthy (hdfs_user_principal sp)
            || py_truthy (hdfs_user_keytab sp)) eqn:Hid.
  - destruct (credential_check (kinit_args sp)) as [e|[]] eqn:Hkinit.
    + destruct (is_Exception e) eqn:Hclass.
      * by rewrite (run_kinit_fails _ _ _ sp params e Hsec Hread Hval Hid
                      Hkinit Hclass).
      * by rewrite (run_kinit_escapes _ _ _ sp params e Hsec Hread Hval Hid
                      Hkinit Hclass).
    + by rewrite (run_kinit_ok _ _ _ sp params Hsec Hread Hval Hid Hkinit).
  - by rewrite (run_no_identity _ _ _ sp params Hsec Hread Hval Hid).
Qed.

Lemma security_status_credential_check_calls_witness :
  py_truthy (hdfs_user_principal SampleHost.keytab_only) = false
  ∧ filter (fun ev => is_credential_check ev = true)
      (calls (security_status (Sample.reads Sample.kerberos_core_site)
                Sample.validator Sample.kinit_succeeds
                SampleHost.keytab_only))
    = [EvKinit (kinit_args SampleHost.keytab_only)].
Proof.
  split; [reflexivity |].
  apply (security_status_credential_check_calls
           (Sample.reads Sample.kerberos_core_site) Sample.validator
           Sample.kinit_succeeds SampleHost.keytab_only
           Sample.kerberos_core_site); reflexivity.
Defined.

(** X4: when validation reports an issue for any source, the credential
    check is skipped even if a principal and a keytab are configured; the
    hook reports [UNSECURED] and returns normally. *)
Theorem security_status_issues_skip_credential_check
    (config_reader : string → list string → PyException + SecurityParams)
    (validator : SecurityParams → Dict ExpectationSet → Dict string)
    (credential_check : KinitArgs → PyException + unit)
    (sp : StatusParams) (params : SecurityParams) :
  security_enabled sp = true →
  config_reader (hadoop_conf_dir sp) ["core-site.xml"] = inr params →
  validator params hdfs_expectations ≠ [] →
  existsb is_credential_check
    (calls (security_status config_reader validator credential_check sp))
    = false
  ∧ report (security_status config_reader validator credential_check sp)
      !! "securityState" = Some "UNSECURED"
  ∧ outcome (security_status config_reader validator credential_check sp)
    = inr tt.
Proof.
  intros Hsec Hread Hval.
  destruct (validator params hdfs_expectations) as [|item items] eqn:Hissues;
    [contradiction |].
  destruct (collect_issues_own_keys (item :: items)) as [issues Hloop].
  unfold calls, report, outcome.
  rewrite (run_issues_found _ _ _ sp params item items issues
             Hsec Hread Hissues Hloop).
  repeat split.
Qed.

Lemma security_status_issues_skip_credential_check_witness :
  py_truthy (hdfs_user_principal Sample.secured)
    && py_truthy (hdfs_user_keytab Sample.secured) = true
  ∧ existsb is_credential_check
      (calls (security_status (Sample.reads Sample.simple_core_site)
                Sample.validator Sample.kinit_succeeds Sample.secured))
    = false.
Proof.
  split; [reflexivity |].
  apply (security_status_issues_skip_credential_check
           (Sample.reads Sample.simple_core_site) Sample.validator
           Sample.kinit_succeeds Sample.secured Sample.simple_core_site);
    first [reflexivity | discriminate].
Defined.

(** X5: on every path the calls to the [security_commons] functions come in
    the order read, validate, credential check, each at most once and none
    without the ones before it; the validation receives what the reader
    returned for [core-site.xml] together with the HDFS expectations. *)
Theorem security_status_call_order
    (config_reader : string → list string → PyException + SecurityParams)
    (validator : SecurityParams → Dict ExpectationSet → Dict string)
    (credential_check : KinitArgs → PyException + unit)
    (sp : StatusParams) :
  filter (fun ev => is_library_call ev = true)
    (calls (security_status config_reader validator credential_check sp))
  `prefix_of`
    [EvGetParams (hadoop_conf_dir sp) ["core-site.xml"];
     EvValidate
       (match config_reader (hadoop_conf_dir sp) ["core-site.xml"] with
        | inr params => params
        | inl _ => []
        end)
       hdfs_expectations;
     EvKinit (kinit_args sp)].
Proof.
  unfold calls.
  pose proof (security_status_run config_reader validator credential_check sp)
    as Hrun.
  inversion Hrun as
    [Hsec Heq|e' Hsec Hread Heq|? ? ? ? Hsec Hread Hval Heq
    |? Hsec Hread Hval Hid Heq|? Hsec Hread Hval Hid Hk Heq
    |? ? Hsec Hread Hval Hid Hk Hclass Heq
    |? ? Hsec Hread Hval Hid Hk Hclass Heq];
    try rewrite Hread; cbn [fst trace].
  - by eexists.
  - by eexists.
  - by eexists.
  - by eexists.
  - by exists [].
  - by exists [].
  - by exists [].
Qed.

(** X6: [security_status] does not depend on the state it is started in:
    from any structured output and any earlier calls it merges the same
    report over the output, appends the same calls and ends the same way as
    from the fresh state. *)
Theorem security_status_from_any_state
    (config_reader : string → list string → PyException + SecurityParams)
    (validator : SecurityParams → Dict ExpectationSet → Dict string)
    (credential_check : KinitArgs → PyException + unit)
    (sp : StatusParams) (w : World) :
  structuredOut
    (fst (security_status config_reader validator credential_check sp w))
  = report (security_status config_reader validator credential_check sp)
    ∪ structuredOut w
  ∧ trace (fst (security_status config_reader validator credential_check sp w))
    = trace w
      ++ calls (security_status config_reader validator credential_check sp)
  ∧ snd (security_status config_reader validator credential_check sp w)
    = outcome (security_status config_reader validator credential_check sp).
Proof.
  rewrite (independent_security_status config_reader validator
             credential_check sp w).
  repeat split.
Qed.

(** X7: asking for the security status twice in a row, with the same
    answers from the library, leaves the report of a single run and ends the
    same way. *)
Theorem security_status_twice
    (config_reader : string → list string → PyException + SecurityParams)
    (validator : SecurityParams → Dict ExpectationSet → Dict string)
    (credential_check : KinitArgs → PyException + unit)
    (sp : StatusParams) :
  structuredOut
    (fst (security_status config_reader validator credential_check sp
            (fst (security_status config_reader validator credential_check
                    sp fresh))))
  = report (security_status config_reader validator credential_check sp)
  ∧ snd (security_status config_reader validator credential_check sp
           (fst (security_status config_reader validator credential_check
                   sp fresh)))
    = outcome (security_status config_reader validator credential_check sp).
Proof.
  rewrite (independent_security_status config_reader validator
             credential_check sp
             (fst (security_status config_reader validator credential_check
                     sp fresh))).
  unfold report, outcome, extend. cbn [fst snd structuredOut].
  split; [| reflexivity]. apply (idemp_L (∪)).
Qed.

(** X8: [security_status] writes no key besides [securityState],
    [securityIssuesFound] and [securityStateErrorInfo], and it reports a
    [securityState], one of [SECURED_KERBEROS], [UNSECURED] and [ERROR],
    exactly when it returns normally. *)
Theorem security_status_reports_state
    (config_reader : string → list string → PyException + SecurityParams)
    (validator : SecurityParams → Dict ExpectationSet → Dict string)
    (credential_check : KinitArgs → PyException + unit)
    (sp : StatusParams) :
  (∀ k,
     is_Some
       (report (security_status config_reader validator credential_check sp)
          !! k) →
     k ∈ security_keys)
  ∧ (outcome (security_status config_reader validator credential_check sp)
       = inr tt
     ↔ ∃ state,
         report (security_status config_reader validator credential_check sp)
           !! "securityState" = Some state
         ∧ state ∈ security_states).
Proof.
  unfold report, outcome, security_keys, security_states.
  pose proof (security_status_run config_reader validator credential_check sp)
    as Hrun.
  inversion Hrun as
    [Hsec Heq|e' Hsec Hread Heq|? ? ? ? Hsec Hread Hval Heq
    |? Hsec Hread Hval Hid Heq|? Hsec Hread Hval Hid Hk Heq
    |? ? Hsec Hread Hval Hid Hk Hclass Heq
    |? ? Hsec Hread Hval Hid Hk Hclass Heq];
    cbn [fst snd structuredOut]; split;
    try (intros key; rewrite <- elem_of_dom;
         rewrite ?dom_insert_L, ?dom_singleton_L, ?dom_empty_L;
         rewrite ?elem_of_union, ?elem_of_singleton, ?elem_of_empty,
           !elem_of_cons; tauto);
    try (split; [| done]; intros _; eexists;
         split; [reflexivity | rewrite !elem_of_cons; tauto]).
  all: split; [discriminate |]; intros (state & Hstate & _);
    by rewrite lookup_empty in Hstate.
Qed.

(** * Further properties: [pre_rolling_restart] *)

(** X9: when the version is set and comparing it with the threshold raises,
    the exception leaves [pre_rolling_restart] as it is and no command is
    executed. *)
Theorem pre_rolling_restart_comparison_failure
    (compare_versions : string → string → PyException + Z)
    (format_hdp_stack_version : option string → string)
    (shell : string → PyException + unit)
    (params : Params) (e : PyException) :
  py_truthy (version params) = true →
  compare_versions (format_hdp_stack_version (version params)) "2.2.0.0"
    = inl e →
  outcome (pre_rolling_restart compare_versions format_hdp_stack_version
             shell params) = inl e
  ∧ calls (pre_rolling_restart compare_versions format_hdp_stack_version
             shell params) = [EvSetParams "params"].
Proof.
  intros Hset Hcmp. unfold outcome, calls. unfold_hook.
  step Hset. step Hcmp. split; reflexivity.
Qed.

Lemma pre_rolling_restart_comparison_failure_witness :
  outcome (pre_rolling_restart
             (SampleHost.compare_raises (mkExc "ValueError" "GlusterFS"))
             Sample.format_hdp_stack_version Sample.shell
             (mkParams (Some "GlusterFS")))
  = inl (mkExc "ValueError" "GlusterFS").
Proof.
  apply (pre_rolling_restart_comparison_failure
           (SampleHost.compare_raises (mkExc "ValueError" "GlusterFS"))
           Sample.format_hdp_stack_version Sample.shell
           (mkParams (Some "GlusterFS")) (mkExc "ValueError" "GlusterFS"));
    reflexivity.
Defined.

(** X10: when the version gate is passed, [pre_rolling_restart] ends the way
    the [hdp-select] command ends: it returns normally if the command
    succeeds and raises the command's exception if it fails. *)
Theorem pre_rolling_restart_command_outcome
    (compare_versions : string → string → PyException + Z)
    (format_hdp_stack_version : option string → string)
    (shell : string → PyException + unit)
    (params : Params) (v : string) :
  version_reaches_threshold compare_versions format_hdp_stack_version
    params v →
  outcome (pre_rolling_restart compare_versions format_hdp_stack_version
             shell params)
  = shell ("hdp-select set hadoop-client " +:+ v).
Proof.
  intros (Hv & Hne & c & Hcmp & Hc). unfold outcome. unfold_hook.
  rewrite Hv. cbn [py_truthy].
  destruct (String.eqb_spec v "") as [->|_]; [contradiction |].
  cbn [negb]. step Hcmp.
  destruct (Z.geb_spec c 0) as [_|Hlt]; [| lia].
  unfold format_hdp_select. cbn [default].
  by destruct (shell _) as [e|[]].
Qed.

Lemma pre_rolling_restart_command_outcome_witness :
  outcome (pre_rolling_restart Sample.compare_versions
             Sample.format_hdp_stack_version
             (SampleHost.shell_fails
                (mkExc "Fail" "hdp-select: command not found"))
             (mkParams (Some "2.2.1.0")))
  = inl (mkExc "Fail" "hdp-select: command not found").
Proof.
  apply (pre_rolling_restart_command_outcome Sample.compare_versions
           Sample.format_hdp_stack_version
           (SampleHost.shell_fails
              (mkExc "Fail" "hdp-select: command not found"))
           (mkParams (Some "2.2.1.0")) "2.2.1.0").
  split; [reflexivity |]. split; [discriminate |].
  exists 1. split; [reflexivity | lia].
Defined.

(** X11: whatever the library answers and whatever state it starts from,
    [pre_rolling_restart] leaves the structured output as it was, and after
    publishing [params] it executes at most one command, the [hdp-select]
    one. *)
Theorem pre_rolling_restart_keeps_structured_out
    (compare_versions : string → string → PyException + Z)
    (format_hdp_stack_version : option string → string)
    (shell : string → PyException + unit)
    (params : Params) (w : World) :
  structuredOut
    (fst (pre_rolling_restart compare_versions format_hdp_stack_version
            shell params w))
  = structuredOut w
  ∧ (trace (fst (pre_rolling_restart compare_versions
                   format_hdp_stack_version shell params w))
     = trace w ++ [EvSetParams "params"]
     ∨ trace (fst (pre_rolling_restart compare_versions
                     format_hdp_stack_version shell params w))
       = trace w ++ [EvSetParams "params";
                     EvExecute (format_hdp_select (version params))]).
Proof.
  rewrite (independent_pre_rolling_restart compare_versions
             format_hdp_stack_version shell params w).
  unfold extend. cbn [fst structuredOut trace]. unfold_hook.
  destruct (py_truthy (version params));
    [| split; [apply (left_id_L ∅ (∪)) | by left]].
  destruct (compare_versions _ _) as [e|c];
    cbn beta iota delta [structuredOut trace app];
    [split; [apply (left_id_L ∅ (∪)) | by left] |].
  destruct (c >=? 0); [| split; [apply (left_id_L ∅ (∪)) | by left]].
  destruct (shell _) as [e|[]];
    (split; [apply (left_id_L ∅ (∪)) | by right]).
Qed.

(** X12: with the version unset ([None] or empty) the comparison is never
    consulted: [pre_rolling_restart] returns normally even if comparing
    would raise. *)
Theorem pre_rolling_restart_unset_version
    (compare_versions : string → string → PyException + Z)
    (format_hdp_stack_version : option string → string)
    (shell : string → PyException + unit)
    (params : Params) :
  py_truthy (version params) = false →
  outcome (pre_rolling_restart compare_versions format_hdp_stack_version
             shell params) = inr tt.
Proof.
  intros Hunset. unfold outcome. unfold_hook. by step Hunset.
Qed.

Lemma pre_rolling_restart_unset_version_witness :
  SampleHost.compare_raises (mkExc "ValueError" "") "" "2.2.0.0"
    = inl (mkExc "ValueError" "")
  ∧ outcome (pre_rolling_restart
               (SampleHost.compare_raises (mkExc "ValueError" ""))
               Sample.format_hdp_stack_version Sample.shell
               (mkParams (Some "")))
    = inr tt.
Proof.
  split; [reflexivity |].
  apply (pre_rolling_restart_unset_version
           (SampleHost.compare_raises (mkExc "ValueError" ""))
           Sample.format_hdp_stack_version Sample.shell (mkParams (Some ""))).
  reflexivity.
Defined.

(** * Further properties: [install] *)

(** X13: when installing the packages raises, [install] raises the same
    exception from the state the package installation left: [params] is not
    published and [hdfs()] does not run. *)
Theorem install_stops_when_packages_fail
    (install_packages : list string → M unit) (hdfs : M unit)
    (params : InstallParams) (w w' : World) (e : PyException) :
  install_packages (exclude_packages params) w = (w', inl e) →
  install install_packages hdfs params w = (w', inl e).
Proof. intros Hfail. unfold install, bind. by rewrite Hfail. Qed.

Lemma install_stops_when_packages_fail_witness :
  trace (fst (install
                (SampleHost.install_packages_fails
                   (mkExc "Fail" "yum: no package hadoop_2_2_* available"))
                SampleHost.hdfs_ok (mkInstallParams ["hadoop-lzo"]) fresh))
  = [EvExecute "/usr/bin/yum -d 0 -e 0 -y install hadoop_2_2_*"].
Proof.
  rewrite (install_stops_when_packages_fail
             (SampleHost.install_packages_fails
                (mkExc "Fail" "yum: no package hadoop_2_2_* available"))
             SampleHost.hdfs_ok (mkInstallParams ["hadoop-lzo"]) fresh
             (mkWorld ∅
                [EvExecute "/usr/bin/yum -d 0 -e 0 -y install hadoop_2_2_*"])
             (mkExc "Fail" "yum: no package hadoop_2_2_* available")
             eq_refl).
  reflexivity.
Defined.

(** X14: when installing the packages succeeds, [install] publishes
    [params] once and then configures: for an [hdfs()] that does not depend
    on the script's state, the calls of [install] are those of the package
    installation, the publication of [params] and those of [hdfs()], in
    this order, and [install] ends the way [hdfs()] ends. *)
Theorem install_then_configures
    (install_packages : list string → M unit) (hdfs : M unit)
    (params : InstallParams) :
  state_independent hdfs →
  outcome (install_packages (exclude_packages params)) = inr tt →
  calls (install install_packages hdfs params)
  = calls (install_packages (exclude_packages params))
    ++ EvSetParams "params" :: calls hdfs
  ∧ report (install install_packages hdfs params)
    = report hdfs ∪ report (install_packages (exclude_packages params))
  ∧ outcome (install install_packages hdfs params) = outcome hdfs.
Proof.
  intros Hhdfs Hok. unfold calls, report, outcome in *.
  unfold install, config, bind, set_params, emit, ret.
  destruct (install_packages (exclude_packages params) fresh) as [w1 r].
  cbn [fst snd] in *. subst r.
  rewrite (Hhdfs (mkWorld (structuredOut w1) (trace w1 ++ [EvSetParams "params"]))).
  destruct (hdfs fresh) as [d [e|[]]]; unfold extend;
    cbn [fst snd structuredOut trace];
    by rewrite <- (assoc_L (++)).
Qed.

Lemma install_then_configures_witness :
  calls (install SampleHost.install_packages_ok SampleHost.hdfs_ok
           (mkInstallParams ["hadoop-lzo"]))
  = [EvExecute "/usr/bin/yum -d 0 -e 0 -y install hadoop_2_2_*";
     EvSetParams "params";
     EvExecute "mkdir -p /etc/security/limits.d"].
Proof.
  apply (install_then_configures SampleHost.install_packages_ok
           SampleHost.hdfs_ok (mkInstallParams ["hadoop-lzo"]));
    [apply independent_emit | reflexivity].
Defined.
